(** * ISO-8601 offset extraction and zone-preserving parsing

    A shallow embedding of [getISOTimezoneOffset] and
    [parseISOToDateInTimezone] (the "parse-zone" example of the repository),
    together with the properties of their specification.

    JavaScript strings are sequences of code units; here a code unit is an
    [ascii] and a string is a Stdlib [string].  The string methods the source
    calls ([includes], [at], [lastIndexOf], [slice]) are modelled with their
    JavaScript argument conventions (negative indices, [-1] for "not found",
    [undefined] as [None]). *)

From Stdlib Require Import ZArith Lia List String Ascii Bool.
From Stdlib Require Import Numbers.DecimalString.
Import ListNotations.
Open Scope string_scope.
Open Scope Z_scope.

(* ------------------------------------------------------------------ *)
(** ** String.prototype methods used by the source *)

Module JSString.

Definition len (s : string) : Z := Z.of_nat (String.length s).

(** [s.includes(pat)]: [pat] occurs in [s] as a substring. *)
Fixpoint includes (s pat : string) : bool :=
  prefix pat s ||
  match s with
  | EmptyString => false
  | String _ s' => includes s' pat
  end.

(** [s.at(index)]: a negative index counts from the end; out of range is
    [undefined]. *)
Definition at_ (s : string) (index : Z) : option string :=
  let k := if index <? 0 then len s + index else index in
  if (k <? 0) || (len s <=? k) then None
  else option_map (fun c => String c EmptyString) (String.get (Z.to_nat k) s).

(** Left-to-right scan remembering the last position where [pat] matched. *)
Fixpoint lastIndexOf_from (pat s : string) (i found : Z) : Z :=
  let found' := if prefix pat s then i else found in
  match s with
  | EmptyString => found'
  | String _ s' => lastIndexOf_from pat s' (i + 1) found'
  end.

(** [s.lastIndexOf(pat)]: index of the last occurrence, [-1] when absent. *)
Definition lastIndexOf (s pat : string) : Z := lastIndexOf_from pat s 0 (-1).

(** [s.slice(start)]: a negative start counts from the end, and the start is
    clamped to the string. *)
Definition slice (s : string) (start : Z) : string :=
  let from := if start <? 0 then Z.max (len s + start) 0
              else Z.min start (len s) in
  substring (Z.to_nat from) (Z.to_nat (len s - from)) s.

End JSString.

(* ------------------------------------------------------------------ *)
(** ** Run-time values and completions

    The parameter [dateStr] is typed [string], but the source guards against
    loosely typed callers ([!dateStr], [typeof dateStr !== "string"]), so the
    functions are modelled on run-time values.  Numbers are the safe
    integers (of magnitude at most 2^53 - 1, which [String] prints in plain
    decimal) and [NaN]; [JObject] is an ordinary object without string
    methods (such as a moment instance), carrying the result of its string
    coercion, [None] when the coercion itself throws. *)

(** [Number.isSafeInteger]. *)
Definition isSafeInteger (n : Z) : bool := Z.abs n <=? 9007199254740991.

Inductive JSValue : Type :=
| JUndefined
| JNull
| JBool (b : bool)
| JNum (n : Z) (safe : isSafeInteger n = true)
| JNaN
| JString (s : string)
| JObject (toStr : option string).

(** The number literal [n]. *)
Abbreviation JInt n := (JNum n eq_refl).

Inductive JSError : Type := TypeError.

Inductive Outcome (A : Type) : Type :=
| Return (a : A)
| Throw (e : JSError).

Arguments Return {A} a.
Arguments Throw {A} e.

Definition bind {A B : Type} (m : Outcome A) (k : A -> Outcome B) : Outcome B :=
  match m with
  | Return a => k a
  | Throw e => Throw e
  end.

Notation "x <- m ;; k" := (bind m (fun x => k))
  (at level 61, m at next level, right associativity).

Definition returns {A : Type} (m : Outcome A) : Prop := exists a, m = Return a.

(** [ToBoolean]: the falsy values are [undefined], [null], [false], [0],
    [NaN] and the empty string. *)
Definition ToBoolean (v : JSValue) : bool :=
  match v with
  | JUndefined | JNull | JNaN => false
  | JBool b => b
  | JNum n _ => negb (n =? 0)
  | JString s => negb (String.eqb s "")
  | JObject _ => true
  end.

(** [typeof v === "string"]. *)
Definition isString (v : JSValue) : bool :=
  match v with
  | JString _ => true
  | _ => false
  end.

(** [String(v)]. *)
Definition ToString (v : JSValue) : Outcome string :=
  match v with
  | JUndefined => Return "undefined"
  | JNull => Return "null"
  | JBool true => Return "true"
  | JBool false => Return "false"
  | JNum n _ => Return (NilZero.string_of_int (Z.to_int n))
  | JNaN => Return "NaN"
  | JString s => Return s
  | JObject (Some s) => Return s
  | JObject None => Throw TypeError
  end.

(** Method calls on a run-time value: only strings carry the methods; on any
    other (truthy) value the property is [undefined] and the call raises
    [TypeError]. *)
Definition call_includes (v : JSValue) (pat : string) : Outcome bool :=
  match v with
  | JString s => Return (JSString.includes s pat)
  | _ => Throw TypeError
  end.

Definition call_at (v : JSValue) (index : Z) : Outcome (option string) :=
  match v with
  | JString s => Return (JSString.at_ s index)
  | _ => Throw TypeError
  end.

Definition call_lastIndexOf (v : JSValue) (pat : string) : Outcome Z :=
  match v with
  | JString s => Return (JSString.lastIndexOf s pat)
  | _ => Throw TypeError
  end.

Definition call_slice (v : JSValue) (start : Z) : Outcome string :=
  match v with
  | JString s => Return (JSString.slice s start)
  | _ => Throw TypeError
  end.

(** [x === "Z"] for [x] a one-unit string or [undefined]. *)
Definition strictEq (x : option string) (lit : string) : bool :=
  match x with
  | Some s => String.eqb s lit
  | None => false
  end.

(* ------------------------------------------------------------------ *)
(** ** getISOTimezoneOffset *)

Definition getISOTimezoneOffset (dateStr : JSValue) : Outcome string :=
  if negb (ToBoolean dateStr) then Return "UTC" else
  hasT <- call_includes dateStr "T" ;;
  if negb hasT then Return "UTC" else
  lastUnit <- call_at dateStr (-1) ;;
  let isDateUTC := strictEq lastUnit "Z" in
  if isDateUTC then Return "UTC" else
  positiveTzOffsetStartIndex <- call_lastIndexOf dateStr "+" ;;
  if positiveTzOffsetStartIndex >? -1
  then call_slice dateStr positiveTzOffsetStartIndex else
  negativeTzOffsetStartIndex <- call_lastIndexOf dateStr "-" ;;
  lastColonCharacterIndex <- call_lastIndexOf dateStr ":" ;;
  if (negativeTzOffsetStartIndex >? -1)
     && (lastColonCharacterIndex >? -1)
     && (negativeTzOffsetStartIndex >? lastColonCharacterIndex)
  then call_slice dateStr negativeTzOffsetStartIndex
  else Return "UTC".

(* ------------------------------------------------------------------ *)
(** ** The zoned-datetime collaborator and the execution environment

    [TZDate] comes from the package [@date-fns/tz]; the parser only calls its
    zero-argument constructor, its two-argument constructor and, in the
    examples, [getHours].  The interface is a class, so that the parser is
    written once and runs with any implementation. *)

Class TZDateOps (T : Type) : Type := {
  TZDate_new0 : Z -> T;                   (* new TZDate(), at clock reading *)
  TZDate_new2 : JSValue -> string -> T;   (* new TZDate(dateStr, timeZone) *)
  getHours : T -> option Z                (* NaN is None *)
}.

(** [process.env.NODE_ENV] and the clock read by [new TZDate()]. *)
Record Env : Type := {
  NODE_ENV : option string;
  now : Z
}.

Definition production (env : Env) : bool :=
  match NODE_ENV env with
  | Some v => String.eqb v "production"
  | None => false
  end.

(** Two environments: a development run and a production run. *)
Definition devEnv : Env := {| NODE_ENV := Some "development"; now := 0 |}.
Definition prodEnv : Env := {| NODE_ENV := Some "production"; now := 0 |}.

(** What [console.warn] received: the message and the logged value. *)
Definition Console : Type := list (string * JSValue).

Definition warning : string :=
  "[parseISOToDateInTimezone] received non-string dateStr parameter".

(* ------------------------------------------------------------------ *)
(** ** parseISOToDateInTimezone *)

Definition parseISOToDateInTimezone {T : Type} `{TZDateOps T}
    (env : Env) (dateStr : JSValue) : Outcome T * Console :=
  if negb (ToBoolean dateStr) then (Return (TZDate_new0 (now env)), []) else
  let '(coerced, console) :=
    if negb (isString dateStr) then
      (if production env
       then (str <- ToString dateStr ;; Return (JString str))
       else Return dateStr,
       [(warning, dateStr)])
    else (Return dateStr, []) in
  (dateStr' <- coerced ;;
   offset <- getISOTimezoneOffset dateStr' ;;
   Return (TZDate_new2 dateStr' offset),
   console).

(* ------------------------------------------------------------------ *)
(** ** Vocabulary of the specification

    Independent, structurally recursive readings of the words the
    specification uses: "contains", "ends in", "last occurrence",
    "substring from a position to the end", and the shapes of timestamps and
    offset literals. *)

(** The unit [c] occurs in [s]. *)
Fixpoint contains (c : ascii) (s : string) : bool :=
  match s with
  | EmptyString => false
  | String a s' => Ascii.eqb a c || contains c s'
  end.

(** The last unit of [s] is [c]. *)
Fixpoint endsIn (c : ascii) (s : string) : bool :=
  match s with
  | EmptyString => false
  | String a EmptyString => Ascii.eqb a c
  | String _ s' => endsIn c s'
  end.

(** Position of the last occurrence of [c] in [s]. *)
Fixpoint lastOcc (c : ascii) (s : string) : option nat :=
  match s with
  | EmptyString => None
  | String a s' =>
      match lastOcc c s' with
      | Some k => Some (S k)
      | None => if Ascii.eqb a c then Some O else None
      end
  end.

(** The substring of [s] from position [k] to the end. *)
Fixpoint suffixFrom (k : nat) (s : string) : string :=
  match k, s with
  | O, _ => s
  | S k', String _ s' => suffixFrom k' s'
  | S _, EmptyString => EmptyString
  end.

Definition isDigit (c : ascii) : bool :=
  let n := N_of_ascii c in ((48 <=? n) && (n <=? 57))%N.

Definition isSign (c : ascii) : bool := Ascii.eqb c "+" || Ascii.eqb c "-".

(** Fixed-width shapes: a digit or a literal unit at each position. *)
Inductive CharClass : Type :=
| D
| L (c : ascii).

Definition classOk (k : CharClass) (a : ascii) : bool :=
  match k with
  | D => isDigit a
  | L c => Ascii.eqb a c
  end.

Fixpoint matches (p : list CharClass) (s : string) : bool :=
  match p, s with
  | [], EmptyString => true
  | k :: p', String a s' => classOk k a && matches p' s'
  | _, _ => false
  end.

(** Calendar dates, extended [YYYY-MM-DD] and basic [YYYYMMDD]. *)
Definition isoDateExtended (s : string) : bool :=
  matches [D; D; D; D; L "-"; D; D; L "-"; D; D] s.
Definition isoDateBasic (s : string) : bool :=
  matches [D; D; D; D; D; D; D; D] s.
Definition isoDate (s : string) : bool := isoDateExtended s || isoDateBasic s.

(** Times of day, extended [hh:mm], [hh:mm:ss], [hh:mm:ss.sss] and basic
    [hhmm], [hhmmss]. *)
Definition isoTimeExtended (s : string) : bool :=
  matches [D; D; L ":"; D; D] s
  || matches [D; D; L ":"; D; D; L ":"; D; D] s
  || matches [D; D; L ":"; D; D; L ":"; D; D; L "."; D; D; D] s.
Definition isoTimeBasic (s : string) : bool :=
  matches [D; D; D; D] s || matches [D; D; D; D; D; D] s.
Definition isoTime (s : string) : bool := isoTimeExtended s || isoTimeBasic s.

(** A signed numeric offset [(+|-)HHMM]. *)
Definition isSignedHHMM (s : string) : bool :=
  match s with
  | String c ds => isSign c && matches [D; D; D; D] ds
  | EmptyString => false
  end.

(** The two shapes of an offset literal. *)
Definition isOffsetLiteral (s : string) : bool :=
  String.eqb s "UTC" || isSignedHHMM s.

(** The algorithm of the specification (steps 1 to 6), written with its own
    words: date-only and [Z]-terminated strings give [UTC]; otherwise the
    suffix from the last [+]; otherwise the suffix from the last [-] when it
    comes strictly after the last [:]; otherwise [UTC]. *)
Definition extractOffset_spec (s : string) : string :=
  if String.eqb s "" then "UTC"
  else if negb (contains "T" s) then "UTC"
  else if endsIn "Z" s then "UTC"
  else match lastOcc "+" s with
       | Some k => suffixFrom k s
       | None =>
           match lastOcc "-" s, lastOcc ":" s with
           | Some i, Some j => if (j <? i)%nat then suffixFrom i s else "UTC"
           | _, _ => "UTC"
           end
       end.

(** Some position of the shape [p] accepts the unit [c]. *)
Definition admits (p : list CharClass) (c : ascii) : bool :=
  existsb (fun k => classOk k c) p.

(* ------------------------------------------------------------------ *)
(** ** Instants and fixed-offset zones

    What a timestamp literal and a zone identifier denote: the instant, in
    milliseconds since the epoch, written by [YYYY-MM-DDThh:mm:ss] followed
    by [Z] or a numeric offset, and the minutes east of UTC of the zone
    [UTC] or [(+|-)HH[:]MM].  Only literals whose fields are in range denote
    an instant (a month from 1 to 12, a day of that month, an hour up to 23,
    minutes and seconds up to 59), and only offsets up to 23:59 denote a
    zone.  The contract of the collaborator's [getHours] is stated with
    them. *)

Definition isLeap (y : Z) : bool :=
  (y mod 4 =? 0) && (negb (y mod 100 =? 0) || (y mod 400 =? 0)).

Definition daysInMonth (y mo : Z) : Z :=
  if mo =? 2 then (if isLeap y then 29 else 28)
  else if (mo =? 4) || (mo =? 6) || (mo =? 9) || (mo =? 11) then 30
  else 31.

Module ISO8601.

Definition obind {A B : Type} (m : option A) (k : A -> option B) : option B :=
  match m with
  | Some a => k a
  | None => None
  end.

Notation "'let?' x := m 'in' k" := (obind m (fun x => k))
  (at level 10, x pattern, m at level 100, k at level 200).

Definition digitVal (c : ascii) : option Z :=
  if isDigit c then Some (Z.of_N (N_of_ascii c) - 48) else None.

(** Exactly [n] decimal digits. *)
Fixpoint number (n : nat) (acc : Z) (s : string) : option (Z * string) :=
  match n with
  | O => Some (acc, s)
  | S n' =>
      match s with
      | String c s' => let? d := digitVal c in number n' (10 * acc + d) s'
      | EmptyString => None
      end
  end.

Definition expect (c : ascii) (s : string) : option string :=
  match s with
  | String a s' => if Ascii.eqb a c then Some s' else None
  | EmptyString => None
  end.

(** Days from 1970-01-01 to the given proleptic Gregorian date. *)
Definition daysFromCivil (y m d : Z) : Z :=
  let y' := if m <=? 2 then y - 1 else y in
  let era := y' / 400 in
  let yoe := y' - era * 400 in
  let mp := if m >? 2 then m - 3 else m + 9 in
  let doy := (153 * mp + 2) / 5 + d - 1 in
  let doe := yoe * 365 + yoe / 4 - yoe / 100 + doy in
  era * 146097 + doe - 719468.

(** Minutes east of UTC written by [(+|-)HHMM] or [(+|-)HH:MM]. *)
Definition numericOffset (s : string) : option Z :=
  match s with
  | String c rest =>
      if isSign c then
        let? (hh, rest1) := number 2 0 rest in
        let rest2 := match expect ":" rest1 with Some r => r | None => rest1 end in
        let? (mm, rest3) := number 2 0 rest2 in
        match rest3 with
        | EmptyString =>
            if (hh <=? 23) && (mm <=? 59) then
              let minutes := 60 * hh + mm in
              Some (if Ascii.eqb c "-" then - minutes else minutes)
            else None
        | _ => None
        end
      else None
  | EmptyString => None
  end.

Definition zoneOffset (tz : string) : option Z :=
  if String.eqb tz "UTC" then Some 0 else numericOffset tz.

(** The date and the time of day are in range. *)
Definition validFields (y mo d hh mi ss : Z) : bool :=
  (1 <=? mo) && (mo <=? 12) && (1 <=? d) && (d <=? daysInMonth y mo)
  && (hh <=? 23) && (mi <=? 59) && (ss <=? 59).

(** The instant a timestamp with an explicit zone designator denotes. *)
Definition instantOf (s : string) : option Z :=
  let? (y, s1) := number 4 0 s in
  let? s2 := expect "-" s1 in
  let? (mo, s3) := number 2 0 s2 in
  let? s4 := expect "-" s3 in
  let? (d, s5) := number 2 0 s4 in
  let? s6 := expect "T" s5 in
  let? (hh, s7) := number 2 0 s6 in
  let? s8 := expect ":" s7 in
  let? (mi, s9) := number 2 0 s8 in
  let? s10 := expect ":" s9 in
  let? (ss, zone) := number 2 0 s10 in
  let? off := (if String.eqb zone "Z" then Some 0 else numericOffset zone) in
  if validFields y mo d hh mi ss
  then Some ((((daysFromCivil y mo d * 24 + hh) * 60 + mi - off) * 60 + ss)
             * 1000)
  else None.

(** The hour of day of instant [t] on a clock [off] minutes east of UTC. *)
Definition hourAt (t off : Z) : Z := ((t + off * 60000) / 3600000) mod 24.

(** The zones the collaborator's contract is assumed for: UTC, the offsets
    east of it, and the offsets of an hour or more west of it. *)
Definition assumedZone (off : Z) : bool := (0 <=? off) || (off <=? -60).

End ISO8601.

(** A reference instance of the collaborator, for fixed-offset zones and
    fully written literals: a value is an instant ([None] for an invalid
    date) tagged with a zone ([None] for the system zone, taken to be UTC).
    It reads exactly the literals [ISO8601.instantOf] reads and takes every
    other string for an invalid date, where the package's parser accepts
    further forms; it serves to run the parser and to show that the contract
    assumed of the collaborator can be met. *)
Module TZModel.

Record TZDate : Type := {
  time : option Z;
  timeZone : option string
}.

Definition new0 (clock : Z) : TZDate :=
  {| time := Some clock; timeZone := None |}.

Definition new2 (dateStr : JSValue) (tz : string) : TZDate :=
  {| time :=
       match ISO8601.zoneOffset tz, dateStr with
       | Some _, JString s => ISO8601.instantOf s
       | Some _, JNum n _ => Some n
       | _, _ => None
       end;
     timeZone := Some tz |}.

Definition hours (d : TZDate) : option Z :=
  match time d with
  | None => None
  | Some t =>
      match timeZone d with
      | None => Some (ISO8601.hourAt t 0)
      | Some tz => option_map (ISO8601.hourAt t) (ISO8601.zoneOffset tz)
      end
  end.

#[global] Instance ops : TZDateOps TZDate := {
  TZDate_new0 := new0;
  TZDate_new2 := new2;
  getHours := hours
}.

End TZModel.

(* ------------------------------------------------------------------ *)
(** ** Timestamp literals from their fields

    The timestamps the parser is meant for, written from their numeric
    fields: [YYYY-MM-DDThh:mm:ss] followed by an offset. *)

Definition digitChar (d : Z) : ascii := ascii_of_N (Z.to_N (48 + d)).

Definition twoDigits (n : Z) (rest : string) : string :=
  String (digitChar (n / 10)) (String (digitChar (n mod 10)) rest).

Definition fourDigits (n : Z) (rest : string) : string :=
  twoDigits (n / 100) (twoDigits (n mod 100) rest).

(** [YYYY-MM-DDThh:mm:ss] followed by [zone]. *)
Definition dateTime (y mo d hh mi ss : Z) (zone : string) : string :=
  fourDigits y (String "-" (twoDigits mo (String "-" (twoDigits d
    (String "T" (twoDigits hh (String ":" (twoDigits mi (String ":"
      (twoDigits ss zone)))))))))).

(** [(+|-)HHMM] and [(+|-)HH:MM]. *)
Definition offsetBasic (sg : ascii) (oh om : Z) : string :=
  String sg (twoDigits oh (twoDigits om EmptyString)).
Definition offsetExtended (sg : ascii) (oh om : Z) : string :=
  String sg (twoDigits oh (String ":" (twoDigits om EmptyString))).

(** A calendar date, a time of day and the magnitude of an offset. *)
Definition fieldsOk (y mo d hh mi ss oh om : Z) : Prop :=
  0 <= y <= 9999 /\ 1 <= mo <= 12 /\ 1 <= d <= daysInMonth y mo /\
  0 <= hh <= 23 /\ 0 <= mi <= 59 /\ 0 <= ss <= 59 /\
  0 <= oh <= 23 /\ 0 <= om <= 59.

(** Minutes east of UTC of the offset with sign [sg]. *)
Definition signedOffset (sg : ascii) (oh om : Z) : Z :=
  if Ascii.eqb sg "-" then - (60 * oh + om) else 60 * oh + om.

(** The shape of [dateTime] up to the zone. *)
Definition dateTimeShape : list CharClass :=
  [D; D; D; D; L "-"; D; D; L "-"; D; D; L "T";
   D; D; L ":"; D; D; L ":"; D; D].

(* ------------------------------------------------------------------ *)
(** ** The tuple and exhaustive-switch examples (src/index.ts)

    [getInverseValue] compares with [===]; the comparison is a class so that
    the function runs on any type of values.  [DoorState] is the enum of the
    example. *)

Class StrictEq (T : Type) : Type := strictEquals : T -> T -> bool.

Definition getInverseValue {T : Type} `{StrictEq T}
    (val : T) (possibleVals : T * T) : T :=
  if strictEquals (fst possibleVals) val
  then snd possibleVals
  else fst possibleVals.

Inductive DoorState : Type := OPEN | CLOSED.

#[global] Instance DoorState_strictEq : StrictEq DoorState :=
  fun a b =>
    match a, b with
    | OPEN, OPEN | CLOSED, CLOSED => true
    | _, _ => false
    end.

(** What a call can raise: an [Error] with its message, or the [TypeError]
    of a failed string coercion inside the template literal. *)
Inductive Exception : Type :=
| ErrorWith (message : string)
| Coercion (e : JSError).

Inductive Completion (A : Type) : Type :=
| Done (a : A)
| Raised (e : Exception).

Arguments Done {A} a.
Arguments Raised {A} e.

Definition quote : string := String "034"%char EmptyString.

(** [assertNever]: throws on a truthy value, returns [undefined]
    otherwise. *)
Definition assertNever (value : JSValue) : Completion JSValue :=
  if ToBoolean value then
    match ToString value with
    | Return str => Raised (ErrorWith ("Unexpected value " ++ quote ++ str ++ quote))
    | Throw e => Raised (Coercion e)
    end
  else Done JUndefined.

(** [platform === lit] for a string literal. *)
Definition isLiteral (v : JSValue) (lit : string) : bool :=
  match v with
  | JString s => String.eqb s lit
  | _ => false
  end.

(** [generateAnalyticsPlatform]: after [assertNever] returns, the function
    falls off its end and yields [undefined]. *)
Definition generateAnalyticsPlatform (platform : JSValue) : Completion JSValue :=
  if isLiteral platform "MOBILE" then Done (JString "mobile")
  else if isLiteral platform "WEB" then Done (JString "web")
  else match assertNever platform with
       | Done _ => Done JUndefined
       | Raised e => Raised e
       end.

(* ------------------------------------------------------------------ *)
(** ** The specification's vocabulary means what it says *)

Section Vocabulary.

Local Open Scope nat_scope.

Lemma contains_spec (c : ascii) (s : string) :
  contains c s = true <-> exists i, String.get i s = Some c.
Proof.
  induction s as [|a s IH]; simpl.
  - split; [discriminate | intros [i Hi]; discriminate].
  - rewrite orb_true_iff, IH, Ascii.eqb_eq. split.
    + intros [-> | [i Hi]]; [now exists 0 | now exists (S i)].
    + intros [[|i] Hi]; [left; congruence | right; now exists i].
Qed.

Lemma contains_app (c : ascii) (p r : string) :
  contains c (p ++ r) = contains c p || contains c r.
Proof.
  induction p as [|a p IH]; simpl; [reflexivity|].
  now rewrite IH, orb_assoc.
Qed.

Lemma endsIn_spec (c : ascii) (s : string) :
  endsIn c s = true <-> exists p, s = p ++ String c EmptyString.
Proof.
  induction s as [|a s IH].
  - simpl. split; [discriminate|]. intros [[|b p] Hp]; discriminate.
  - destruct s as [|b s].
    + simpl. rewrite Ascii.eqb_eq. split.
      * intros ->. now exists EmptyString.
      * intros [[|a' [|b' p]] Hp]; simpl in Hp; congruence.
    + change (endsIn c (String a (String b s))) with (endsIn c (String b s)).
      rewrite IH. split.
      * intros [p ->]. now exists (String a p).
      * intros [[|a' p] Hp]; simpl in Hp; [discriminate|].
        injection Hp as _ Hp. now exists p.
Qed.

Lemma endsIn_contains (c : ascii) (s : string) :
  endsIn c s = true -> contains c s = true.
Proof.
  intros [p ->]%endsIn_spec.
  rewrite contains_app. simpl. now rewrite Ascii.eqb_refl, orb_true_r.
Qed.

Lemma endsIn_app (c : ascii) (p r : string) :
  r <> EmptyString -> endsIn c (p ++ r) = endsIn c r.
Proof.
  intros Hr. induction p as [|a p IH]; [reflexivity|].
  rewrite <- IH. simpl.
  destruct (p ++ r) eqn:E; [|reflexivity].
  destruct p; simpl in E; [congruence | discriminate].
Qed.

Lemma lastOcc_None (c : ascii) (s : string) :
  lastOcc c s = None <-> contains c s = false.
Proof.
  induction s as [|a s IH]; simpl; [tauto|].
  destruct (lastOcc c s) as [k|].
  - split; [discriminate|]. intros H%orb_false_elim.
    destruct IH as [_ IH]. now specialize (IH (proj2 H)).
  - destruct IH as [IH _]. rewrite (IH eq_refl), orb_false_r.
    destruct (Ascii.eqb a c); split; congruence.
Qed.

Lemma suffixFrom_app (p r : string) : suffixFrom (String.length p) (p ++ r) = r.
Proof. induction p as [|a p IH]; simpl; [now destruct r | exact IH]. Qed.

(** The last occurrence splits the string around the unit, with no later
    occurrence. *)
Lemma lastOcc_split (c : ascii) (s : string) (k : nat) :
  lastOcc c s = Some k ->
  exists pre rest,
    s = pre ++ String c rest /\ String.length pre = k /\
    contains c rest = false /\ suffixFrom k s = String c rest.
Proof.
  revert k. induction s as [|a s IH]; intros k; simpl; [discriminate|].
  destruct (lastOcc c s) as [j|] eqn:E.
  - intros [= <-]. destruct (IH j eq_refl) as (pre & rest & -> & Hl & Hc & Hs).
    exists (String a pre), rest. simpl. now rewrite Hl.
  - destruct (Ascii.eqb a c) eqn:Ea; [|discriminate].
    intros [= <-]. apply Ascii.eqb_eq in Ea as ->.
    exists EmptyString, s. simpl. now rewrite <- lastOcc_None.
Qed.

Lemma lastOcc_app_r (c : ascii) (p r : string) (k : nat) :
  lastOcc c r = Some k -> lastOcc c (p ++ r) = Some (String.length p + k).
Proof.
  intros H. induction p as [|a p IH]; simpl; [exact H | now rewrite IH].
Qed.

Lemma lastOcc_app_l (c : ascii) (p r : string) :
  contains c r = false -> lastOcc c (p ++ r) = lastOcc c p.
Proof.
  intros H. induction p as [|a p IH]; simpl; [now apply lastOcc_None|].
  now rewrite IH.
Qed.

Lemma lastOcc_lt (c : ascii) (s : string) (k : nat) :
  lastOcc c s = Some k -> k < String.length s.
Proof.
  intros (pre & rest & -> & <- & _)%lastOcc_split.
  induction pre; simpl; lia.
Qed.

Lemma lastOcc_get (c : ascii) (s : string) (k : nat) :
  lastOcc c s = Some k ->
  String.get k s = Some c /\ forall j, k < j -> String.get j s <> Some c.
Proof.
  revert k. induction s as [|a s IH]; intros k; simpl; [discriminate|].
  destruct (lastOcc c s) as [i|] eqn:E.
  - intros [= <-]. destruct (IH i eq_refl) as [Hg Hl]. split; [exact Hg|].
    intros [|j] Hj; [lia|]. apply Hl. lia.
  - destruct (Ascii.eqb a c) eqn:Ea; [|discriminate].
    intros [= <-]. apply Ascii.eqb_eq in Ea as ->. split; [reflexivity|].
    intros [|j] Hj; [lia|]. intros Hg.
    apply lastOcc_None in E.
    assert (contains c s = true) by (apply contains_spec; now exists j).
    congruence.
Qed.

End Vocabulary.

(* ------------------------------------------------------------------ *)
(** ** The string methods, on one-unit search strings *)

Section Methods.

Lemma prefix_unit (c : ascii) (s : string) :
  prefix (String c EmptyString) s =
  match s with
  | EmptyString => false
  | String a _ => Ascii.eqb a c
  end.
Proof.
  destruct s as [|a s]; simpl; [reflexivity|].
  destruct (ascii_dec c a) as [->|Hn].
  - rewrite Ascii.eqb_refl. now destruct s.
  - symmetry. apply Ascii.eqb_neq. congruence.
Qed.

Lemma includes_unit (c : ascii) (s : string) :
  JSString.includes s (String c EmptyString) = contains c s.
Proof.
  induction s as [|a s IH]; [reflexivity|].
  cbn [JSString.includes contains]. now rewrite prefix_unit, IH.
Qed.

Lemma lastIndexOf_from_unit (c : ascii) (s : string) (i found : Z) :
  JSString.lastIndexOf_from (String c EmptyString) s i found =
  match lastOcc c s with
  | Some k => i + Z.of_nat k
  | None => found
  end.
Proof.
  revert i found. induction s as [|a s IH]; intros i found.
  - reflexivity.
  - cbn [JSString.lastIndexOf_from lastOcc]. rewrite IH, prefix_unit.
    destruct (lastOcc c s) as [k|]; [lia|].
    destruct (Ascii.eqb a c); simpl; lia.
Qed.

Lemma lastIndexOf_unit (c : ascii) (s : string) :
  JSString.lastIndexOf s (String c EmptyString) =
  match lastOcc c s with
  | Some k => Z.of_nat k
  | None => -1
  end.
Proof.
  unfold JSString.lastIndexOf. rewrite lastIndexOf_from_unit.
  now destruct (lastOcc c s).
Qed.

Lemma substring_all (s : string) : substring 0 (String.length s) s = s.
Proof. induction s as [|a s IH]; simpl; [reflexivity | now rewrite IH]. Qed.

Lemma substring_suffix (k : nat) (s : string) :
  (k <= String.length s)%nat ->
  substring k (String.length s - k) s = suffixFrom k s.
Proof.
  revert k. induction s as [|a s IH]; intros [|k] Hk; simpl in *;
    try reflexivity; try lia.
  - now rewrite substring_all.
  - apply IH. lia.
Qed.

Lemma slice_nat (k : nat) (s : string) :
  (k <= String.length s)%nat ->
  JSString.slice s (Z.of_nat k) = suffixFrom k s.
Proof.
  intros Hk. unfold JSString.slice, JSString.len.
  destruct (Z.ltb_spec (Z.of_nat k) 0) as [Hlt|_]; [lia|].
  rewrite Z.min_l by lia.
  rewrite Nat2Z.id, <- Nat2Z.inj_sub, Nat2Z.id by lia.
  now apply substring_suffix.
Qed.

Lemma get_last (a : ascii) (s : string) :
  String.get (String.length s) (String a s) =
  Some (match s with
        | EmptyString => a
        | String _ _ =>
            match String.get (String.length s - 1) s with
            | Some b => b
            | None => a
            end
        end).
Proof.
  revert a. induction s as [|b s IH]; intros a; [reflexivity|].
  change (String.get (String.length (String b s)) (String a (String b s)))
    with (String.get (String.length s) (String b s)).
  rewrite IH. cbn [String.length]. rewrite Nat.sub_succ, Nat.sub_0_r.
  now rewrite IH.
Qed.

Lemma at_last (c : ascii) (s : string) :
  strictEq (JSString.at_ s (-1)) (String c EmptyString) = endsIn c s.
Proof.
  unfold JSString.at_, JSString.len. cbn [Z.ltb Z.compare].
  induction s as [|a s IH]; [reflexivity|].
  destruct s as [|b s].
  - simpl. destruct (Ascii.eqb a c); reflexivity.
  - change (endsIn c (String a (String b s))) with (endsIn c (String b s)).
    rewrite <- IH. clear IH.
    set (t := String b s).
    assert (Ht : (0 < String.length t)%nat) by (subst t; simpl; lia).
    cbn [String.length].
    destruct (Z.ltb_spec (Z.of_nat (S (String.length t)) + -1) 0); [lia|].
    destruct (Z.leb_spec (Z.of_nat (S (String.length t)))
                (Z.of_nat (S (String.length t)) + -1)); [lia|].
    destruct (Z.ltb_spec (Z.of_nat (String.length t) + -1) 0); [lia|].
    destruct (Z.leb_spec (Z.of_nat (String.length t))
                (Z.of_nat (String.length t) + -1)); [lia|].
    cbn [orb].
    replace (Z.to_nat (Z.of_nat (S (String.length t)) + -1))
      with (S (String.length t - 1)) by lia.
    replace (Z.to_nat (Z.of_nat (String.length t) + -1))
      with (String.length t - 1)%nat by lia.
    reflexivity.
Qed.

End Methods.

(* ------------------------------------------------------------------ *)
(** ** The decision order of the specification, and the code against it *)

Lemma getISOTimezoneOffset_refines (s : string) :
  getISOTimezoneOffset (JString s) = Return (extractOffset_spec s).
Proof.
  unfold getISOTimezoneOffset, extractOffset_spec.
  cbn [ToBoolean call_includes call_at call_lastIndexOf call_slice bind].
  rewrite negb_involutive.
  destruct (String.eqb s "") eqn:Es; [reflexivity|].
  rewrite includes_unit.
  destruct (contains "T" s) eqn:ET; cbn [negb]; [|reflexivity].
  rewrite at_last.
  destruct (endsIn "Z" s) eqn:EZ; [reflexivity|].
  rewrite !lastIndexOf_unit.
  destruct (lastOcc "+" s) as [k|] eqn:Ep.
  - destruct (Z.gtb_spec (Z.of_nat k) (-1)) as [_|Hle]; [|lia].
    f_equal. apply slice_nat. apply lastOcc_lt in Ep. lia.
  - change (-1 >? -1) with false. cbv iota.
    destruct (lastOcc "-" s) as [i|] eqn:Em; [|reflexivity].
    destruct (Z.gtb_spec (Z.of_nat i) (-1)) as [_|Hle]; [|lia].
    destruct (lastOcc ":" s) as [j|] eqn:Ec; [|reflexivity].
    destruct (Z.gtb_spec (Z.of_nat j) (-1)) as [_|Hle]; [|lia].
    cbn [andb].
    destruct (Nat.ltb_spec j i) as [Hlt|Hge].
    + destruct (Z.gtb_spec (Z.of_nat i) (Z.of_nat j)) as [_|Hle]; [|lia].
      f_equal. apply slice_nat. apply lastOcc_lt in Em. lia.
    + destruct (Z.gtb_spec (Z.of_nat i) (Z.of_nat j)) as [Hgt|_]; [lia|].
      reflexivity.
Qed.

(* ------------------------------------------------------------------ *)
(** ** Shapes *)

Section Shapes.

Lemma matches_contains (p : list CharClass) (s : string) (c : ascii) :
  matches p s = true -> contains c s = true -> admits p c = true.
Proof.
  unfold admits.
  revert s. induction p as [|k p IH]; intros [|a s]; simpl; try discriminate.
  intros [Hk Hm]%andb_prop [Ha|Hc]%orb_prop.
  - apply Ascii.eqb_eq in Ha as ->. now rewrite Hk.
  - rewrite (IH s Hm Hc). apply orb_true_r.
Qed.

Lemma matches_literal (p : list CharClass) (s : string) (c : ascii) :
  matches p s = true -> In (L c) p -> contains c s = true.
Proof.
  revert s. induction p as [|k p IH]; intros [|a s]; simpl; try discriminate;
    try tauto.
  intros [Hk Hm]%andb_prop [->|Hin].
  - simpl in Hk. now rewrite Hk.
  - rewrite (IH s Hm Hin). apply orb_true_r.
Qed.

Lemma matches_digits (s : string) (c : ascii) :
  matches [D; D; D; D] s = true -> contains c s = true -> isDigit c = true.
Proof.
  intros Hm Hc. pose proof (matches_contains _ _ _ Hm Hc) as H.
  unfold admits in H. simpl in H. now destruct (isDigit c).
Qed.

Lemma append_assoc (a b c : string) : (a ++ b) ++ c = a ++ b ++ c.
Proof. induction a as [|x a IH]; simpl; [reflexivity | now rewrite IH]. Qed.

Lemma lastOcc_here (c : ascii) (p ds : string) :
  contains c ds = false ->
  lastOcc c (p ++ String c ds) = Some (String.length p).
Proof.
  intros H. rewrite (lastOcc_app_r c p (String c ds) 0).
  - f_equal. lia.
  - simpl. apply lastOcc_None in H. now rewrite H, Ascii.eqb_refl.
Qed.

(** A sign followed by digits, after a body with a time component, is what
    the algorithm returns; a minus sign needs a body with a colon and
    without a plus. *)
Lemma offset_after_body (body : string) (sg : ascii) (ds : string) :
  contains "T" body = true ->
  ds <> EmptyString ->
  (forall c, contains c ds = true -> isDigit c = true) ->
  isSign sg = true ->
  (sg = "-"%char ->
   contains "+" body = false /\ contains ":" body = true) ->
  extractOffset_spec (body ++ String sg ds) = String sg ds.
Proof.
  intros HT Hne Hds Hsg Hminus.
  assert (Hno : forall c, isDigit c = false -> contains c ds = false).
  { intros c Hc. destruct (contains c ds) eqn:E; [|reflexivity].
    apply Hds in E. congruence. }
  unfold extractOffset_spec.
  destruct (String.eqb_spec (body ++ String sg ds) "") as [E|_].
  { destruct body; discriminate. }
  rewrite contains_app, HT. cbn [orb negb].
  rewrite endsIn_app by discriminate.
  assert (HZ : endsIn "Z" (String sg ds) = false).
  { destruct ds as [|d ds]; [congruence|].
    change (endsIn "Z" (String sg (String d ds)))
      with (endsIn "Z" (String d ds)).
    destruct (endsIn "Z" (String d ds)) eqn:E; [|reflexivity].
    apply endsIn_contains in E. rewrite Hno in E; [discriminate|reflexivity]. }
  rewrite HZ.
  unfold isSign in Hsg. apply orb_prop in Hsg as [Hp|Hm].
  - apply Ascii.eqb_eq in Hp as ->.
    rewrite lastOcc_here by (now apply Hno).
    apply suffixFrom_app.
  - apply Ascii.eqb_eq in Hm as ->.
    destruct (Hminus eq_refl) as [Hplus Hcolon].
    assert (Hp : lastOcc "+" (body ++ String "-" ds) = None).
    { apply lastOcc_None. rewrite contains_app, Hplus. simpl.
      now apply Hno. }
    rewrite Hp, lastOcc_here by (now apply Hno).
    rewrite lastOcc_app_l by (simpl; now apply Hno).
    destruct (lastOcc ":" body) as [j|] eqn:Ej.
    + apply lastOcc_lt in Ej.
      destruct (Nat.ltb_spec j (String.length body)); [|lia].
      apply suffixFrom_app.
    + apply lastOcc_None in Ej. congruence.
Qed.

End Shapes.

(* ------------------------------------------------------------------ *)
(** ** Offset extraction *)

(** Closes [contains c s = false] when [s] has a shape none of whose
    positions accepts [c]. *)
Ltac shape_excludes Hshape :=
  lazymatch goal with
  | |- contains ?c ?s = false =>
      let E := fresh "E" in
      let X := fresh "X" in
      destruct (contains c s) eqn:E; [|reflexivity];
      pose proof (matches_contains _ _ _ Hshape E) as X;
      vm_compute in X; discriminate X
  end.

Lemma isoDate_no_plus (date : string) :
  isoDate date = true -> contains "+" date = false.
Proof.
  unfold isoDate, isoDateExtended, isoDateBasic.
  intros [H|H]%orb_prop; shape_excludes H.
Qed.

Lemma isoTime_no_plus (time : string) :
  isoTime time = true -> contains "+" time = false.
Proof.
  unfold isoTime, isoTimeExtended, isoTimeBasic.
  intros [[[H|H]%orb_prop|H]%orb_prop|[H|H]%orb_prop]%orb_prop;
    shape_excludes H.
Qed.

Lemma isoTimeExtended_colon (time : string) :
  isoTimeExtended time = true -> contains ":" time = true.
Proof.
  unfold isoTimeExtended.
  intros [[H|H]%orb_prop|H]%orb_prop;
    apply (matches_literal _ _ _ H); simpl; tauto.
Qed.

(** C1, as stated, fails on the basic format: [20201014T140300-0200] is a
    date, a time and a signed offset, and the offset is not what
    [getISOTimezoneOffset] returns. *)
Lemma C1_basic_format_counterexample :
  isoDate "20201014" = true /\ isoTime "140300" = true /\
  isSignedHHMM "-0200" = true /\
  getISOTimezoneOffset (JString ("20201014" ++ "T" ++ "140300" ++ "-0200"))
  <> Return "-0200".
Proof. repeat split; try reflexivity. vm_compute. discriminate. Qed.

(** C1 (amended): for every timestamp [date T time offset] with a calendar
    date, a time of day and a signed offset [(+|-)HHMM], where the time is
    written in the extended format (with colons) or the sign is [+],
    [getISOTimezoneOffset] returns exactly the trailing offset; in particular
    ["2020-10-14T14:03:00+0200"] gives ["+0200"] and
    ["2020-10-14T14:03:00-0200"] gives ["-0200"]. *)
Theorem C1_trailing_offset :
  (forall date time off : string,
      isoDate date = true ->
      isoTime time = true ->
      isSignedHHMM off = true ->
      isoTimeExtended time = true \/ (exists ds, off = String "+" ds) ->
      getISOTimezoneOffset (JString (date ++ "T" ++ time ++ off)) = Return off)
  /\ getISOTimezoneOffset (JString "2020-10-14T14:03:00+0200") = Return "+0200"
  /\ getISOTimezoneOffset (JString "2020-10-14T14:03:00-0200") = Return "-0200".
Proof.
  split; [|split; vm_compute; reflexivity].
  intros date time [|sg ds] Hd Ht Ho Hfmt; [discriminate|].
  simpl in Ho. apply andb_prop in Ho as [Hsg Hds].
  rewrite getISOTimezoneOffset_refines. f_equal.
  replace (date ++ "T" ++ time ++ String sg ds)
    with ((date ++ String "T" time) ++ String sg ds)
    by (rewrite append_assoc; reflexivity).
  apply offset_after_body.
  - rewrite contains_app. simpl. apply orb_true_r.
  - destruct ds; discriminate.
  - intros c. now apply matches_digits.
  - exact Hsg.
  - intros ->. destruct Hfmt as [Hext|[ds' [=]]].
    rewrite !contains_app. simpl.
    rewrite (isoDate_no_plus _ Hd), (isoTime_no_plus _ Ht).
    rewrite (isoTimeExtended_colon _ Hext). split; [reflexivity|].
    apply orb_true_r.
Qed.

Lemma C1_trailing_offset_witness :
  getISOTimezoneOffset (JString ("2019-03-02" ++ "T" ++ "07:18" ++ "-0100"))
  = Return "-0100".
Proof.
  apply (proj1 C1_trailing_offset "2019-03-02" "07:18" "-0100");
    [reflexivity | reflexivity | reflexivity | left; reflexivity].
Defined.

(** Outside the amended statement: an offset written with a colon after a
    minus sign puts the last colon after the last minus. *)
Example negative_offset_with_colon :
  getISOTimezoneOffset (JString "2019-03-02T07:18:00-01:00") = Return "UTC" /\
  getISOTimezoneOffset (JString "2019-03-02T07:18:00+01:00") = Return "+01:00".
Proof. split; vm_compute; reflexivity. Qed.

(** C2: for every non-empty string that contains a [T], does not end in [Z]
    and contains a [+], [getISOTimezoneOffset] returns the substring from the
    last occurrence of [+] to the end. *)
Theorem C2_last_plus (s : string) :
  s <> "" ->
  contains "T" s = true ->
  endsIn "Z" s = false ->
  contains "+" s = true ->
  exists k,
    lastOcc "+" s = Some k /\
    getISOTimezoneOffset (JString s) = Return (suffixFrom k s).
Proof.
  intros Hne HT HZ Hp.
  rewrite getISOTimezoneOffset_refines. unfold extractOffset_spec.
  destruct (String.eqb_spec s "") as [E|_]; [contradiction|].
  rewrite HT, HZ. cbn [negb].
  destruct (lastOcc "+" s) as [k|] eqn:Ek.
  - now exists k.
  - apply lastOcc_None in Ek. congruence.
Qed.

Lemma C2_last_plus_witness :
  exists k,
    lastOcc "+" "a+bT14:03:00+02:00" = Some k /\
    getISOTimezoneOffset (JString "a+bT14:03:00+02:00")
    = Return (suffixFrom k "a+bT14:03:00+02:00").
Proof.
  apply (C2_last_plus "a+bT14:03:00+02:00");
    [discriminate | reflexivity | reflexivity | reflexivity].
Defined.

(** C3: for every non-empty string that contains a [T], does not end in [Z]
    and contains no [+]: when a [-] exists and the last [-] comes strictly
    after the last [:], [getISOTimezoneOffset] returns the substring from
    that [-] to the end; otherwise it returns ["UTC"].  (Coming after the
    last colon requires a colon to be present.) *)
Theorem C3_last_minus_after_colon (s : string) :
  s <> "" ->
  contains "T" s = true ->
  endsIn "Z" s = false ->
  contains "+" s = false ->
  getISOTimezoneOffset (JString s) =
  Return match lastOcc "-" s, lastOcc ":" s with
         | Some i, Some j => if (j <? i)%nat then suffixFrom i s else "UTC"
         | _, _ => "UTC"
         end.
Proof.
  intros Hne HT HZ Hp.
  rewrite getISOTimezoneOffset_refines. unfold extractOffset_spec.
  destruct (String.eqb_spec s "") as [E|_]; [contradiction|].
  rewrite HT, HZ. cbn [negb].
  apply lastOcc_None in Hp. now rewrite Hp.
Qed.

Lemma C3_last_minus_after_colon_witness :
  getISOTimezoneOffset (JString "2020-10-14T14:03:00-0200") = Return "-0200".
Proof.
  apply (C3_last_minus_after_colon "2020-10-14T14:03:00-0200");
    [discriminate | reflexivity | reflexivity | reflexivity].
Defined.

(** C4: [getISOTimezoneOffset] returns ["UTC"] on the empty string, on
    [undefined] and the other falsy values, on the date-only ["2020-10-14"],
    on the offset-free ["2020-10-14T14:03:00"] (whose [-] belong to the date)
    and on the [Z]-terminated ["2020-10-14T14:03:00Z"]. *)
Theorem C4_utc_defaults :
  getISOTimezoneOffset (JString "") = Return "UTC" /\
  getISOTimezoneOffset JUndefined = Return "UTC" /\
  getISOTimezoneOffset JNull = Return "UTC" /\
  getISOTimezoneOffset (JBool false) = Return "UTC" /\
  getISOTimezoneOffset (JInt 0) = Return "UTC" /\
  getISOTimezoneOffset JNaN = Return "UTC" /\
  getISOTimezoneOffset (JString "2020-10-14") = Return "UTC" /\
  getISOTimezoneOffset (JString "2020-10-14T14:03:00") = Return "UTC" /\
  getISOTimezoneOffset (JString "2020-10-14T14:03:00Z") = Return "UTC".
Proof. repeat split; vm_compute; reflexivity. Qed.

(** C5, as stated, fails: on ["2019-03-02T07:19:00+00:00"], an input of the
    repository's own tests, the result is the six-unit ["+00:00"], neither
    ["UTC"] nor of the form [(+|-)HHMM]. *)
Lemma C5_offset_literal_counterexample :
  exists r,
    getISOTimezoneOffset (JString "2019-03-02T07:19:00+00:00") = Return r /\
    isOffsetLiteral r = false.
Proof. exists "+00:00". split; vm_compute; reflexivity. Qed.

(** C5 (amended): for every input string the result is either ["UTC"] or a
    suffix of the input, taken verbatim, that starts with the last [+] or
    with a [-] after which no [-] follows; it is never empty. *)
Theorem C5_utc_or_signed_suffix (s : string) :
  exists r,
    getISOTimezoneOffset (JString s) = Return r /\
    r <> "" /\
    (r = "UTC" \/
     exists pre c rest,
       s = pre ++ r /\ r = String c rest /\
       isSign c = true /\ contains c rest = false).
Proof.
  rewrite getISOTimezoneOffset_refines. eexists. split; [reflexivity|].
  assert (Hutc : "UTC" <> "" /\
                 ("UTC" = "UTC" \/
                  exists pre c rest,
                    s = pre ++ "UTC" /\ "UTC" = String c rest /\
                    isSign c = true /\ contains c rest = false)).
  { split; [discriminate | now left]. }
  assert (Hsuf : forall c k, isSign c = true -> lastOcc c s = Some k ->
                 suffixFrom k s <> "" /\
                 (suffixFrom k s = "UTC" \/
                  exists pre c rest,
                    s = pre ++ suffixFrom k s /\ suffixFrom k s = String c rest /\
                    isSign c = true /\ contains c rest = false)).
  { intros c k Hc (pre & rest & Hs & _ & Hrest & Hk)%lastOcc_split.
    rewrite Hk. split; [discriminate|]. right. now exists pre, c, rest. }
  unfold extractOffset_spec.
  destruct (String.eqb s ""); [exact Hutc|].
  destruct (negb (contains "T" s)); [exact Hutc|].
  destruct (endsIn "Z" s); [exact Hutc|].
  destruct (lastOcc "+" s) as [k|] eqn:Ep; [now apply (Hsuf "+"%char)|].
  destruct (lastOcc "-" s) as [i|] eqn:Em; [|exact Hutc].
  destruct (lastOcc ":" s) as [j|]; [|exact Hutc].
  destruct (j <? i)%nat; [now apply (Hsuf "-"%char) | exact Hutc].
Qed.

(** C10: for every string that contains a [T], does not end in [Z],
    contains no [+] and no [:], [getISOTimezoneOffset] returns ["UTC"], also
    when the string contains a [-]: the basic-format
    ["20201014T140300-0200"] gives ["UTC"], not ["-0200"]. *)
Theorem C10_no_colon_gives_utc :
  (forall s : string,
      contains "T" s = true ->
      endsIn "Z" s = false ->
      contains "+" s = false ->
      contains ":" s = false ->
      getISOTimezoneOffset (JString s) = Return "UTC")
  /\ contains "-" "20201014T140300-0200" = true
  /\ getISOTimezoneOffset (JString "20201014T140300-0200") = Return "UTC".
Proof.
  split; [|split; vm_compute; reflexivity].
  intros s HT HZ Hp Hc.
  rewrite getISOTimezoneOffset_refines. unfold extractOffset_spec.
  rewrite HT, HZ. cbn [negb].
  apply lastOcc_None in Hp, Hc. rewrite Hp, Hc.
  destruct (String.eqb s ""); [reflexivity|].
  now destruct (lastOcc "-" s).
Qed.

Lemma C10_no_colon_gives_utc_witness :
  getISOTimezoneOffset (JString "2020-10-14T14") = Return "UTC".
Proof.
  apply (proj1 C10_no_colon_gives_utc "2020-10-14T14");
    reflexivity.
Defined.

(* ------------------------------------------------------------------ *)
(** ** Zone-preserving parsing

    The collaborator's constructors and accessors are the fields of
    [TZDateOps]: they are total, so a constructor call itself never throws
    (an unparseable date is an "Invalid Date" value, not an exception). *)

Lemma getISOTimezoneOffset_string_returns (s : string) :
  returns (getISOTimezoneOffset (JString s)).
Proof. eexists. apply getISOTimezoneOffset_refines. Qed.

Lemma truthy_string_nonempty (s : string) :
  ToBoolean (JString s) = true <-> s <> "".
Proof.
  simpl. rewrite negb_true_iff. apply String.eqb_neq.
Qed.

Lemma TZModel_hours_new2 (s tz : string) (t o : Z) :
  ISO8601.instantOf s = Some t ->
  ISO8601.zoneOffset tz = Some o ->
  ISO8601.assumedZone o = true ->
  getHours (TZDate_new2 (JString s) tz) = Some (ISO8601.hourAt t o).
Proof.
  intros Ht Ho _. simpl. unfold TZModel.hours, TZModel.new2. simpl.
  now rewrite Ho, Ht.
Qed.

(** Literals and zones with a field out of range denote nothing, so the
    contract below assumes nothing about them. *)
Example out_of_range_denotes_nothing :
  ISO8601.instantOf "2020-13-45T25:61:61Z" = None /\
  ISO8601.instantOf "2021-02-29T10:00:00Z" = None /\
  ISO8601.zoneOffset "+9999" = None /\
  ISO8601.instantOf "2020-02-29T10:00:00Z" = Some 1582970400000.
Proof. repeat split; vm_compute; reflexivity. Qed.

Section Parser.

Context {T : Type} `{TZDateOps T}.

Lemma parse_string (env : Env) (s : string) :
  s <> "" ->
  parseISOToDateInTimezone env (JString s) =
  (Return (TZDate_new2 (JString s) (extractOffset_spec s)), []).
Proof.
  intros Hs. unfold parseISOToDateInTimezone.
  apply truthy_string_nonempty in Hs. rewrite Hs.
  cbn [negb isString bind]. now rewrite getISOTimezoneOffset_refines.
Qed.

(** C6: for every non-empty string [dateStr], [parseISOToDateInTimezone]
    returns exactly the value the two-argument constructor builds from
    [dateStr], unchanged, and [getISOTimezoneOffset dateStr]; nothing is
    logged. *)
Theorem C6_parse_constructs_with_offset (env : Env) (s : string) :
  s <> "" ->
  exists offset,
    getISOTimezoneOffset (JString s) = Return offset /\
    parseISOToDateInTimezone env (JString s) =
    (Return (TZDate_new2 (JString s) offset), []).
Proof.
  intros Hs. exists (extractOffset_spec s).
  split; [apply getISOTimezoneOffset_refines | now apply parse_string].
Qed.

(** C7: on every empty or falsy input [parseISOToDateInTimezone] raises no
    error and returns the value of the zero-argument constructor (the
    current moment, no explicit offset). *)
Theorem C7_falsy_gives_now (env : Env) (v : JSValue) :
  ToBoolean v = false ->
  parseISOToDateInTimezone env v = (Return (TZDate_new0 (now env)), []).
Proof.
  intros Hv. unfold parseISOToDateInTimezone. now rewrite Hv.
Qed.

(** C8 (amended): on every string and on every falsy input neither
    [getISOTimezoneOffset] nor [parseISOToDateInTimezone] throws; on a truthy
    non-string input [parseISOToDateInTimezone] returns in production mode,
    where the input is first coerced to a string, provided that coercion
    itself succeeds; outside production mode, and in [getISOTimezoneOffset]
    called directly, a truthy non-string input (which lacks the string
    methods) raises [TypeError]. *)
Theorem C8_returns_on_strings_and_in_production (env : Env) (v : JSValue) :
  (ToBoolean v = false \/ isString v = true ->
   returns (getISOTimezoneOffset v)) /\
  (ToBoolean v = false \/ isString v = true \/
   (production env = true /\ returns (ToString v)) ->
   returns (fst (parseISOToDateInTimezone env v))) /\
  (ToBoolean v = true -> isString v = false ->
   getISOTimezoneOffset v = Throw TypeError) /\
  (ToBoolean v = true -> isString v = false -> production env = false ->
   fst (parseISOToDateInTimezone env v) = Throw TypeError).
Proof.
  assert (Hthrow : ToBoolean v = true -> isString v = false ->
                   getISOTimezoneOffset v = Throw TypeError).
  { intros Hv Hs. unfold getISOTimezoneOffset. rewrite Hv. cbn [negb].
    destruct v; try discriminate; reflexivity. }
  split; [|split; [|split; [exact Hthrow|]]].
  3:{ intros Hv Hs Hp. unfold parseISOToDateInTimezone.
      rewrite Hv, Hs, Hp. cbn [negb fst bind].
      now rewrite (Hthrow Hv Hs). }
  - intros [Hf|Hs].
    + unfold getISOTimezoneOffset. rewrite Hf. now eexists.
    + destruct v; try discriminate. apply getISOTimezoneOffset_string_returns.
  - intros Hcase.
    destruct (ToBoolean v) eqn:Hv.
    2:{ unfold parseISOToDateInTimezone. rewrite Hv. now eexists. }
    destruct Hcase as [Hf|[Hs|[Hprod [str Hstr]]]]; [discriminate| |].
    + destruct v; try discriminate.
      apply truthy_string_nonempty in Hv.
      rewrite (parse_string env s Hv). now eexists.
    + unfold parseISOToDateInTimezone. rewrite Hv. cbn [negb].
      destruct (isString v) eqn:Es.
      * destruct v; try discriminate. cbn [negb fst bind].
        rewrite getISOTimezoneOffset_refines. now eexists.
      * cbn [negb fst]. rewrite Hprod, Hstr. cbn [bind].
        rewrite getISOTimezoneOffset_refines. now eexists.
Qed.

Section WallClock.

(** The collaborator's contract for [getHours]: a value built from a
    timestamp literal with fields in range and from a zone (UTC or an offset
    up to 23:59) shows the hour of the literal's instant on the clock of
    that zone.  Nothing is assumed for any other string or zone. *)
Hypothesis getHours_new2 :
  forall (s tz : string) (t o : Z),
    ISO8601.instantOf s = Some t ->
    ISO8601.zoneOffset tz = Some o ->
    ISO8601.assumedZone o = true ->
    getHours (TZDate_new2 (JString s) tz) = Some (ISO8601.hourAt t o).

(** C9: the hour of [parseISOToDateInTimezone "2020-10-14T14:03:00+0200"] is
    14, the hour written in the input, whereas the same instant read in UTC
    has hour 12. *)
Theorem C9_wall_clock_hour (env : Env) :
  exists d,
    fst (parseISOToDateInTimezone env (JString "2020-10-14T14:03:00+0200"))
    = Return d /\
    getHours d = Some 14 /\
    getHours (TZDate_new2 (JString "2020-10-14T14:03:00+0200") "UTC")
    = Some 12.
Proof.
  rewrite parse_string by discriminate.
  eexists. split; [reflexivity|]. split.
  - replace (extractOffset_spec "2020-10-14T14:03:00+0200") with "+0200"
      by (vm_compute; reflexivity).
    rewrite (getHours_new2 _ _ 1602676980000 120);
      vm_compute; reflexivity.
  - rewrite (getHours_new2 _ _ 1602676980000 0);
      vm_compute; reflexivity.
Qed.

End WallClock.

End Parser.

Lemma C6_parse_constructs_with_offset_witness :
  exists offset,
    getISOTimezoneOffset (JString "2019-03-02T07:18:00+01:00") = Return offset /\
    parseISOToDateInTimezone devEnv (JString "2019-03-02T07:18:00+01:00") =
    (Return (TZModel.new2 (JString "2019-03-02T07:18:00+01:00") offset), []).
Proof.
  refine (C6_parse_constructs_with_offset devEnv "2019-03-02T07:18:00+01:00" _).
  discriminate.
Defined.

Lemma C7_falsy_gives_now_witness :
  parseISOToDateInTimezone devEnv JUndefined = (Return (TZModel.new0 0), []).
Proof.
  refine (C7_falsy_gives_now devEnv JUndefined _). reflexivity.
Defined.

(** C8, as stated, fails on a non-string input: on the number 5 the call
    [dateStr.includes] raises [TypeError], in [getISOTimezoneOffset] and,
    outside production mode, in [parseISOToDateInTimezone]. *)
Lemma C8_non_string_counterexample :
  getISOTimezoneOffset (JInt 5) = Throw TypeError /\
  fst (parseISOToDateInTimezone (T := TZModel.TZDate) devEnv (JInt 5))
  = Throw TypeError /\
  ~ returns (getISOTimezoneOffset (JInt 5)) /\
  ~ returns (fst (parseISOToDateInTimezone (T := TZModel.TZDate) devEnv (JInt 5))).
Proof.
  repeat split; try (vm_compute; reflexivity);
    intros [a Ha]; vm_compute in Ha; discriminate.
Qed.

Lemma C8_returns_on_strings_and_in_production_witness :
  returns (fst (parseISOToDateInTimezone (T := TZModel.TZDate) prodEnv (JInt 5))).
Proof.
  apply (proj1 (proj2 (C8_returns_on_strings_and_in_production prodEnv (JInt 5)))).
  right. right. split; [reflexivity|]. exists "5". reflexivity.
Defined.

Lemma C9_wall_clock_hour_witness :
  exists d,
    fst (parseISOToDateInTimezone devEnv (JString "2020-10-14T14:03:00+0200"))
    = Return d /\
    TZModel.hours d = Some 14 /\
    TZModel.hours (TZModel.new2 (JString "2020-10-14T14:03:00+0200") "UTC")
    = Some 12.
Proof.
  exact (C9_wall_clock_hour TZModel_hours_new2 devEnv).
Defined.

(* ------------------------------------------------------------------ *)
(** ** Offsets written with a colon, and when an offset is extracted *)

Section ColonOffsets.

(** A plus sign after a body with a time component: the rest is returned
    as it is. *)
Lemma plus_suffix (body rest : string) :
  contains "T" body = true ->
  contains "+" rest = false ->
  endsIn "Z" (String "+" rest) = false ->
  extractOffset_spec (body ++ String "+" rest) = String "+" rest.
Proof.
  intros HT Hp HZ. unfold extractOffset_spec.
  destruct (String.eqb_spec (body ++ String "+" rest) "") as [E|_].
  { destruct body; discriminate. }
  rewrite contains_app, HT. cbn [orb negb].
  rewrite endsIn_app, HZ by discriminate.
  rewrite lastOcc_here by exact Hp.
  apply suffixFrom_app.
Qed.

(** A minus sign followed by a colon: the last colon comes after the last
    minus, and the result is ["UTC"]. *)
Lemma minus_before_colon (body rest : string) :
  contains "+" body = false ->
  contains "+" rest = false ->
  contains "-" rest = false ->
  contains ":" rest = true ->
  extractOffset_spec (body ++ String "-" rest) = "UTC".
Proof.
  intros Hpb Hpr Hm Hc. unfold extractOffset_spec.
  destruct (String.eqb (body ++ String "-" rest) ""); [reflexivity|].
  destruct (negb (contains "T" (body ++ String "-" rest))); [reflexivity|].
  destruct (endsIn "Z" (body ++ String "-" rest)); [reflexivity|].
  assert (Hp : lastOcc "+" (body ++ String "-" rest) = None).
  { apply lastOcc_None. rewrite contains_app, Hpb. simpl. exact Hpr. }
  rewrite Hp, lastOcc_here by exact Hm.
  destruct (lastOcc ":" rest) as [k|] eqn:Ek.
  2:{ apply lastOcc_None in Ek. congruence. }
  rewrite (lastOcc_app_r ":" body (String "-" rest) (S k))
    by (simpl; now rewrite Ek).
  destruct (Nat.ltb_spec (String.length body + S k) (String.length body));
    [lia | reflexivity].
Qed.

Lemma twoDigit_field (hh : string) (c : ascii) :
  matches [D; D] hh = true -> contains c hh = true -> isDigit c = true.
Proof.
  intros Hm Hc. pose proof (matches_contains _ _ _ Hm Hc) as H.
  unfold admits in H. simpl in H. now destruct (isDigit c).
Qed.

Lemma colon_offset_contains (c : ascii) (hh mm : string) :
  matches [D; D] hh = true ->
  matches [D; D] mm = true ->
  isDigit c = false ->
  contains c (hh ++ ":" ++ mm) = Ascii.eqb ":" c.
Proof.
  intros Hh Hm Hc. rewrite !contains_app. simpl.
  destruct (contains c hh) eqn:E1.
  { apply (twoDigit_field _ _ Hh) in E1. congruence. }
  destruct (contains c mm) eqn:E2.
  { apply (twoDigit_field _ _ Hm) in E2. congruence. }
  now rewrite !orb_false_r.
Qed.

Lemma colon_offset_no_Z (sg : ascii) (hh mm : string) :
  matches [D; D] hh = true ->
  matches [D; D] mm = true ->
  endsIn "Z" (String sg (hh ++ ":" ++ mm)) = false.
Proof.
  intros Hh Hm.
  destruct (endsIn "Z" (String sg (hh ++ ":" ++ mm))) eqn:E; [|reflexivity].
  destruct hh as [|a hh]; [discriminate|].
  change (endsIn "Z" (String a hh ++ ":" ++ mm) = true) in E.
  apply endsIn_contains in E.
  rewrite (colon_offset_contains "Z" _ _ Hh Hm) in E by reflexivity.
  discriminate.
Qed.

Lemma body_contains (c : ascii) (date time : string) :
  contains c (date ++ String "T" time) =
  contains c date || (Ascii.eqb "T" c || contains c time).
Proof. now rewrite contains_app. Qed.

(** X1: for every calendar date and time of day, a positive offset written
    with a colon, [+HH:MM], is returned verbatim. *)
Theorem X1_plus_colon_offset (date time hh mm : string) :
  isoDate date = true ->
  isoTime time = true ->
  matches [D; D] hh = true ->
  matches [D; D] mm = true ->
  getISOTimezoneOffset (JString (date ++ "T" ++ time ++ "+" ++ hh ++ ":" ++ mm))
  = Return ("+" ++ hh ++ ":" ++ mm).
Proof.
  intros Hd Ht Hh Hm. rewrite getISOTimezoneOffset_refines. f_equal.
  replace (date ++ "T" ++ time ++ "+" ++ hh ++ ":" ++ mm)
    with ((date ++ String "T" time) ++ String "+" (hh ++ ":" ++ mm))
    by (rewrite append_assoc; reflexivity).
  apply plus_suffix.
  - rewrite body_contains. simpl. apply orb_true_r.
  - now rewrite (colon_offset_contains "+" _ _ Hh Hm).
  - now apply colon_offset_no_Z.
Qed.

Lemma X1_plus_colon_offset_witness :
  getISOTimezoneOffset
    (JString ("2019-03-02" ++ "T" ++ "07:18:00" ++ "+" ++ "01" ++ ":" ++ "00"))
  = Return ("+" ++ "01" ++ ":" ++ "00").
Proof.
  apply (X1_plus_colon_offset "2019-03-02" "07:18:00" "01" "00"); reflexivity.
Defined.

(** X2: for every calendar date and time of day, a negative offset written
    with a colon, [-HH:MM], is not extracted: the result is ["UTC"]. *)
Theorem X2_minus_colon_offset_is_utc (date time hh mm : string) :
  isoDate date = true ->
  isoTime time = true ->
  matches [D; D] hh = true ->
  matches [D; D] mm = true ->
  getISOTimezoneOffset (JString (date ++ "T" ++ time ++ "-" ++ hh ++ ":" ++ mm))
  = Return "UTC".
Proof.
  intros Hd Ht Hh Hm. rewrite getISOTimezoneOffset_refines. f_equal.
  replace (date ++ "T" ++ time ++ "-" ++ hh ++ ":" ++ mm)
    with ((date ++ String "T" time) ++ String "-" (hh ++ ":" ++ mm))
    by (rewrite append_assoc; reflexivity).
  apply minus_before_colon.
  - rewrite body_contains, (isoDate_no_plus _ Hd), (isoTime_no_plus _ Ht).
    reflexivity.
  - now rewrite (colon_offset_contains "+" _ _ Hh Hm).
  - now rewrite (colon_offset_contains "-" _ _ Hh Hm).
  - now rewrite (colon_offset_contains ":" _ _ Hh Hm).
Qed.

Lemma X2_minus_colon_offset_is_utc_witness :
  getISOTimezoneOffset
    (JString ("2019-03-02" ++ "T" ++ "07:18:00" ++ "-" ++ "01" ++ ":" ++ "00"))
  = Return "UTC".
Proof.
  apply (X2_minus_colon_offset_is_utc "2019-03-02" "07:18:00" "01" "00");
    reflexivity.
Defined.

(** X3: an offset is extracted (the result differs from ["UTC"]) exactly
    when the string contains a [T], does not end in [Z], and contains a [+]
    or has its last [-] strictly after its last [:]. *)
Theorem X3_offset_extracted_iff (s : string) :
  getISOTimezoneOffset (JString s) <> Return "UTC" <->
  contains "T" s = true /\ endsIn "Z" s = false /\
  (contains "+" s = true \/
   exists i j, lastOcc "-" s = Some i /\ lastOcc ":" s = Some j /\ (j < i)%nat).
Proof.
  rewrite getISOTimezoneOffset_refines. unfold extractOffset_spec.
  assert (Hsuf : forall c k, isSign c = true -> lastOcc c s = Some k ->
                 Return (suffixFrom k s) <> Return "UTC").
  { intros c k Hc (pre & rest & _ & _ & _ & Hk)%lastOcc_split.
    rewrite Hk. intros [= -> _]. discriminate Hc. }
  destruct (String.eqb_spec s "") as [->|_].
  { split; [congruence | intros [HT _]; discriminate]. }
  destruct (contains "T" s); cbn [negb].
  2:{ split; [congruence | intros [HT _]; discriminate]. }
  destruct (endsIn "Z" s).
  { split; [congruence | intros (_ & HZ & _); discriminate]. }
  destruct (lastOcc "+" s) as [k|] eqn:Ep.
  - split; [|intros _; now apply (Hsuf "+"%char)].
    intros _. repeat split. left.
    destruct (contains "+" s) eqn:E; [reflexivity|].
    apply lastOcc_None in E. congruence.
  - apply lastOcc_None in Ep.
    destruct (lastOcc "-" s) as [i|] eqn:Em.
    2:{ split; [congruence|]. intros (_ & _ & [H|(i & j & H & _)]); congruence. }
    destruct (lastOcc ":" s) as [j|] eqn:Ec.
    2:{ split; [congruence|].
        intros (_ & _ & [H|(i' & j & _ & H & _)]); congruence. }
    destruct (Nat.ltb_spec j i) as [Hlt|Hge].
    + split; [|intros _; now apply (Hsuf "-"%char)].
      intros _. repeat split. right. now exists i, j.
    + split; [congruence|].
      intros (_ & _ & [H|(i' & j' & [= <-] & [= <-] & Hlt)]); [congruence|lia].
Qed.

End ColonOffsets.

(* ------------------------------------------------------------------ *)
(** ** Timestamp literals: what they parse to and what is extracted *)

Section Literals.

Lemma daysInMonth_le (y mo : Z) : daysInMonth y mo <= 31.
Proof.
  unfold daysInMonth.
  destruct (mo =? 2); [destruct (isLeap y); lia|].
  destruct ((mo =? 4) || (mo =? 6) || (mo =? 9) || (mo =? 11)); lia.
Qed.

(** Linear arithmetic with division by constants. *)
Ltac dlia := Z.to_euclidean_division_equations; lia.

Lemma digitVal_digitChar (d : Z) :
  0 <= d <= 9 -> ISO8601.digitVal (digitChar d) = Some d.
Proof.
  intros Hd.
  assert (Hc : d = 0 \/ d = 1 \/ d = 2 \/ d = 3 \/ d = 4 \/ d = 5 \/
               d = 6 \/ d = 7 \/ d = 8 \/ d = 9) by lia.
  repeat (destruct Hc as [->|Hc]; [reflexivity|]). now subst.
Qed.

Lemma isDigit_digitChar (d : Z) : 0 <= d <= 9 -> isDigit (digitChar d) = true.
Proof.
  intros Hd. pose proof (digitVal_digitChar d Hd) as H.
  unfold ISO8601.digitVal in H. now destruct (isDigit (digitChar d)).
Qed.

Lemma digitChar_neq (d : Z) (c : ascii) :
  0 <= d <= 9 -> isDigit c = false -> Ascii.eqb (digitChar d) c = false.
Proof.
  intros Hd Hc. apply Ascii.eqb_neq. intros <-.
  rewrite isDigit_digitChar in Hc by exact Hd. discriminate.
Qed.

Lemma number_twoDigits (k : nat) (n acc : Z) (rest : string) :
  0 <= n <= 99 ->
  ISO8601.number (S (S k)) acc (twoDigits n rest) =
  ISO8601.number k (100 * acc + n) rest.
Proof.
  intros Hn. unfold twoDigits. cbn [ISO8601.number].
  rewrite !digitVal_digitChar by dlia. cbn [ISO8601.obind].
  f_equal. dlia.
Qed.

Lemma number2 (n : Z) (rest : string) :
  0 <= n <= 99 -> ISO8601.number 2 0 (twoDigits n rest) = Some (n, rest).
Proof. intros Hn. now rewrite number_twoDigits by exact Hn. Qed.

Lemma number4 (y : Z) (rest : string) :
  0 <= y <= 9999 -> ISO8601.number 4 0 (fourDigits y rest) = Some (y, rest).
Proof.
  intros Hy. unfold fourDigits. rewrite !number_twoDigits by dlia.
  cbn [ISO8601.number]. do 2 f_equal. dlia.
Qed.

Lemma expect_hit (c : ascii) (rest : string) :
  ISO8601.expect c (String c rest) = Some rest.
Proof. simpl. now rewrite Ascii.eqb_refl. Qed.

Lemma expect_digit (c : ascii) (n : Z) (rest : string) :
  0 <= n <= 99 -> isDigit c = false ->
  ISO8601.expect c (twoDigits n rest) = None.
Proof.
  intros Hn Hc. unfold twoDigits. cbn [ISO8601.expect].
  now rewrite digitChar_neq by (exact Hc || dlia).
Qed.

Lemma matches_twoDigits (p : list CharClass) (n : Z) (rest : string) :
  0 <= n <= 99 -> matches (D :: D :: p) (twoDigits n rest) = matches p rest.
Proof.
  intros Hn. unfold twoDigits. cbn [matches classOk].
  now rewrite !isDigit_digitChar by dlia.
Qed.

Lemma matches_lit (p : list CharClass) (c : ascii) (rest : string) :
  matches (L c :: p) (String c rest) = matches p rest.
Proof. cbn [matches classOk]. now rewrite Ascii.eqb_refl. Qed.

Lemma dateTime_app (y mo d hh mi ss : Z) (zone : string) :
  dateTime y mo d hh mi ss zone = dateTime y mo d hh mi ss "" ++ zone.
Proof. reflexivity. Qed.

Lemma dateTime_shape (y mo d hh mi ss : Z) :
  0 <= y <= 9999 -> 0 <= mo <= 99 -> 0 <= d <= 99 ->
  0 <= hh <= 99 -> 0 <= mi <= 99 -> 0 <= ss <= 99 ->
  matches dateTimeShape (dateTime y mo d hh mi ss "") = true.
Proof.
  intros Hy Hmo Hd Hhh Hmi Hss.
  unfold dateTimeShape, dateTime, fourDigits.
  repeat first [rewrite matches_twoDigits by dlia | rewrite matches_lit].
  reflexivity.
Qed.

Lemma sign_not_letter (sg u : ascii) (rest tail : string) :
  isSign sg = true -> isSign u = false ->
  String.eqb (String sg rest) (String u tail) = false.
Proof.
  intros Hs Hu. cbn [String.eqb].
  destruct (Ascii.eqb_spec sg u) as [->|_]; [congruence | reflexivity].
Qed.

Lemma offset_in_range (oh om : Z) :
  0 <= oh <= 23 -> 0 <= om <= 59 -> (oh <=? 23) && (om <=? 59) = true.
Proof. intros Hoh Hom. apply andb_true_intro. split; apply Z.leb_le; lia. Qed.

Lemma numericOffset_basic (sg : ascii) (oh om : Z) :
  isSign sg = true -> 0 <= oh <= 23 -> 0 <= om <= 59 ->
  ISO8601.numericOffset (offsetBasic sg oh om) = Some (signedOffset sg oh om).
Proof.
  intros Hs Hoh Hom. unfold ISO8601.numericOffset, offsetBasic.
  rewrite Hs, number2 by lia. cbn [ISO8601.obind].
  rewrite expect_digit by (lia || reflexivity).
  rewrite number2 by lia. cbn [ISO8601.obind].
  now rewrite offset_in_range.
Qed.

Lemma numericOffset_extended (sg : ascii) (oh om : Z) :
  isSign sg = true -> 0 <= oh <= 23 -> 0 <= om <= 59 ->
  ISO8601.numericOffset (offsetExtended sg oh om) = Some (signedOffset sg oh om).
Proof.
  intros Hs Hoh Hom. unfold ISO8601.numericOffset, offsetExtended.
  rewrite Hs, number2 by lia. cbn [ISO8601.obind].
  rewrite expect_hit, number2 by lia. cbn [ISO8601.obind].
  now rewrite offset_in_range.
Qed.

Lemma zoneOffset_numeric (sg : ascii) (rest : string) :
  isSign sg = true ->
  ISO8601.zoneOffset (String sg rest) = ISO8601.numericOffset (String sg rest).
Proof.
  intros Hs. unfold ISO8601.zoneOffset.
  now rewrite (sign_not_letter sg "U" rest "TC" Hs).
Qed.

(** The instant of a literal: its written wall-clock time, moved back by
    its offset. *)
Lemma instantOf_dateTime (y mo d hh mi ss o : Z) (sg : ascii) (rest : string) :
  0 <= y <= 9999 -> 1 <= mo <= 12 -> 1 <= d <= daysInMonth y mo ->
  0 <= hh <= 23 -> 0 <= mi <= 59 -> 0 <= ss <= 59 ->
  isSign sg = true ->
  ISO8601.numericOffset (String sg rest) = Some o ->
  ISO8601.instantOf (dateTime y mo d hh mi ss (String sg rest)) =
  Some ((((ISO8601.daysFromCivil y mo d * 24 + hh) * 60 + mi - o) * 60 + ss)
        * 1000).
Proof.
  intros Hy Hmo Hd Hhh Hmi Hss Hs Ho.
  pose proof (daysInMonth_le y mo) as Hdim.
  unfold ISO8601.instantOf, dateTime.
  rewrite number4 by exact Hy. cbn [ISO8601.obind].
  repeat (first [rewrite number2 by lia | rewrite expect_hit];
          cbn [ISO8601.obind]).
  rewrite (sign_not_letter sg "Z" rest "" Hs) by reflexivity.
  rewrite Ho. cbn [ISO8601.obind].
  assert (Hv : ISO8601.validFields y mo d hh mi ss = true).
  { unfold ISO8601.validFields.
    repeat (apply andb_true_intro; split); apply Z.leb_le; lia. }
  now rewrite Hv.
Qed.

Lemma hourAt_written (days hh mi ss o : Z) :
  0 <= hh <= 23 -> 0 <= mi <= 59 -> 0 <= ss <= 59 ->
  ISO8601.hourAt ((((days * 24 + hh) * 60 + mi - o) * 60 + ss) * 1000) o = hh.
Proof.
  intros Hhh Hmi Hss. unfold ISO8601.hourAt. dlia.
Qed.

Lemma hourAt_utc_of_negative (days hh mi ss oh om : Z) :
  0 <= mi <= 59 -> 0 <= ss <= 59 -> 0 <= om <= 59 ->
  ISO8601.hourAt
    ((((days * 24 + hh) * 60 + mi - - (60 * oh + om)) * 60 + ss) * 1000) 0
  = (hh + oh + (mi + om) / 60) mod 24.
Proof.
  intros Hmi Hss Hom. unfold ISO8601.hourAt. dlia.
Qed.

Lemma dateTime_body_facts (y mo d hh mi ss : Z) :
  0 <= y <= 9999 -> 0 <= mo <= 99 -> 0 <= d <= 99 ->
  0 <= hh <= 99 -> 0 <= mi <= 99 -> 0 <= ss <= 99 ->
  contains "T" (dateTime y mo d hh mi ss "") = true /\
  contains ":" (dateTime y mo d hh mi ss "") = true /\
  contains "+" (dateTime y mo d hh mi ss "") = false.
Proof.
  intros Hy Hmo Hd Hhh Hmi Hss.
  pose proof (dateTime_shape y mo d hh mi ss Hy Hmo Hd Hhh Hmi Hss) as Hshape.
  repeat split.
  - apply (matches_literal _ _ _ Hshape). simpl. tauto.
  - apply (matches_literal _ _ _ Hshape). simpl. tauto.
  - shape_excludes Hshape.
Qed.

Lemma extended_rest_shape (oh om : Z) :
  0 <= oh <= 99 -> 0 <= om <= 99 ->
  matches [D; D; L ":"; D; D] (twoDigits oh (String ":" (twoDigits om ""))) = true.
Proof.
  intros Hoh Hom.
  now rewrite matches_twoDigits, matches_lit, matches_twoDigits by lia.
Qed.

Lemma spec_dateTime_basic (y mo d hh mi ss oh om : Z) (sg : ascii) :
  0 <= y <= 9999 -> 0 <= mo <= 99 -> 0 <= d <= 99 ->
  0 <= hh <= 99 -> 0 <= mi <= 99 -> 0 <= ss <= 99 ->
  0 <= oh <= 99 -> 0 <= om <= 99 ->
  isSign sg = true ->
  extractOffset_spec (dateTime y mo d hh mi ss (offsetBasic sg oh om))
  = offsetBasic sg oh om.
Proof.
  intros Hy Hmo Hd Hhh Hmi Hss Hoh Hom Hs.
  destruct (dateTime_body_facts y mo d hh mi ss Hy Hmo Hd Hhh Hmi Hss)
    as (HT & Hc & Hp).
  rewrite dateTime_app. unfold offsetBasic.
  apply offset_after_body; try assumption.
  - unfold twoDigits. discriminate.
  - intros c. apply matches_digits.
    now rewrite !matches_twoDigits by lia.
  - intros _. now split.
Qed.

Lemma spec_dateTime_extended_plus (y mo d hh mi ss oh om : Z) :
  0 <= y <= 9999 -> 0 <= mo <= 99 -> 0 <= d <= 99 ->
  0 <= hh <= 99 -> 0 <= mi <= 99 -> 0 <= ss <= 99 ->
  0 <= oh <= 99 -> 0 <= om <= 99 ->
  extractOffset_spec (dateTime y mo d hh mi ss (offsetExtended "+" oh om))
  = offsetExtended "+" oh om.
Proof.
  intros Hy Hmo Hd Hhh Hmi Hss Hoh Hom.
  destruct (dateTime_body_facts y mo d hh mi ss Hy Hmo Hd Hhh Hmi Hss)
    as (HT & Hc & Hp).
  pose proof (extended_rest_shape oh om Hoh Hom) as Hshape.
  rewrite dateTime_app. unfold offsetExtended.
  assert (HZ : contains "Z" (twoDigits oh (String ":" (twoDigits om ""))) = false)
    by shape_excludes Hshape.
  apply plus_suffix; [exact HT | shape_excludes Hshape |].
  destruct (endsIn "Z" (String "+" (twoDigits oh (String ":" (twoDigits om "")))))
    eqn:E; [|reflexivity].
  apply endsIn_contains in E.
  change (contains "Z" (twoDigits oh (String ":" (twoDigits om ""))) = true) in E.
  congruence.
Qed.

Lemma spec_dateTime_extended_minus (y mo d hh mi ss oh om : Z) :
  0 <= y <= 9999 -> 0 <= mo <= 99 -> 0 <= d <= 99 ->
  0 <= hh <= 99 -> 0 <= mi <= 99 -> 0 <= ss <= 99 ->
  0 <= oh <= 99 -> 0 <= om <= 99 ->
  extractOffset_spec (dateTime y mo d hh mi ss (offsetExtended "-" oh om))
  = "UTC".
Proof.
  intros Hy Hmo Hd Hhh Hmi Hss Hoh Hom.
  destruct (dateTime_body_facts y mo d hh mi ss Hy Hmo Hd Hhh Hmi Hss)
    as (HT & Hc & Hp).
  pose proof (extended_rest_shape oh om Hoh Hom) as Hshape.
  rewrite dateTime_app. unfold offsetExtended.
  apply minus_before_colon; [exact Hp | shape_excludes Hshape
                            | shape_excludes Hshape |].
  apply (matches_literal _ _ _ Hshape). simpl. tauto.
Qed.

End Literals.

(* ------------------------------------------------------------------ *)
(** ** The parser on non-string inputs and on timestamp literals *)

Lemma dateTime_nonempty (y mo d hh mi ss : Z) (zone : string) :
  dateTime y mo d hh mi ss zone <> "".
Proof. unfold dateTime, fourDigits, twoDigits. discriminate. Qed.

Section ParserOnOtherInputs.

Context {T : Type} `{TZDateOps T}.

(** X4: in production mode a truthy non-string input is replaced by its
    string coercion: the result is built from that string and the offset
    extracted from it (also when the coercion is the empty string, which
    does not fall back to the current moment), and one warning carrying the
    original value is logged. *)
Theorem X4_production_coerces (env : Env) (v : JSValue) (str : string) :
  ToBoolean v = true ->
  isString v = false ->
  production env = true ->
  ToString v = Return str ->
  exists offset,
    getISOTimezoneOffset (JString str) = Return offset /\
    parseISOToDateInTimezone env v =
    (Return (TZDate_new2 (JString str) offset), [(warning, v)]).
Proof.
  intros Hv Hs Hp Hstr. exists (extractOffset_spec str).
  split; [apply getISOTimezoneOffset_refines|].
  unfold parseISOToDateInTimezone. rewrite Hv, Hs, Hp, Hstr.
  cbn [negb bind]. now rewrite getISOTimezoneOffset_refines.
Qed.

(** X5: outside production mode a truthy non-string input (a number, [true]
    or an object without string methods) makes the parser throw [TypeError],
    after the warning carrying the value has been logged. *)
Theorem X5_non_production_throws (env : Env) (v : JSValue) :
  ToBoolean v = true ->
  isString v = false ->
  production env = false ->
  parseISOToDateInTimezone env v = (Throw TypeError, [(warning, v)]).
Proof.
  intros Hv Hs Hp. unfold parseISOToDateInTimezone. rewrite Hv, Hs, Hp.
  cbn [negb bind]. unfold getISOTimezoneOffset. rewrite Hv. cbn [negb].
  destruct v; try discriminate; reflexivity.
Qed.

Section WrittenHour.

(** The collaborator's contract for [getHours], as in [WallClock]: assumed
    only for literals with fields in range and for the zones of
    [ISO8601.assumedZone]. *)
Hypothesis getHours_new2 :
  forall (s tz : string) (t o : Z),
    ISO8601.instantOf s = Some t ->
    ISO8601.zoneOffset tz = Some o ->
    ISO8601.assumedZone o = true ->
    getHours (TZDate_new2 (JString s) tz) = Some (ISO8601.hourAt t o).

(** X6: for every literal [YYYY-MM-DDThh:mm:ss] with fields in range and
    an offset [(+|-)HHMM] or [+HH:MM] (east of UTC, or an hour or more west
    of it), the parsed value shows the hour [hh] written in the literal. *)
Theorem X6_written_hour_preserved
    (env : Env) (y mo d hh mi ss oh om : Z) (sg : ascii) (zone : string) :
  fieldsOk y mo d hh mi ss oh om ->
  isSign sg = true ->
  ISO8601.assumedZone (signedOffset sg oh om) = true ->
  zone = offsetBasic sg oh om \/
  (sg = "+"%char /\ zone = offsetExtended sg oh om) ->
  exists dt,
    fst (parseISOToDateInTimezone env
           (JString (dateTime y mo d hh mi ss zone))) = Return dt /\
    getHours dt = Some hh.
Proof.
  intros (Hy & Hmo & Hd & Hhh & Hmi & Hss & Hoh & Hom) Hs Hz Hzone.
  pose proof (daysInMonth_le y mo) as Hdim.
  rewrite parse_string by apply dateTime_nonempty.
  eexists. split; [reflexivity|].
  destruct Hzone as [-> | [-> ->]].
  - rewrite spec_dateTime_basic by (assumption || lia).
    rewrite (getHours_new2 _ _
               ((((ISO8601.daysFromCivil y mo d * 24 + hh) * 60 + mi
                  - signedOffset sg oh om) * 60 + ss) * 1000)
               (signedOffset sg oh om)).
    + now rewrite hourAt_written by lia.
    + apply instantOf_dateTime; try assumption; try lia.
      apply numericOffset_basic; [assumption | lia | lia].
    + unfold offsetBasic. rewrite zoneOffset_numeric by assumption.
      apply numericOffset_basic; [assumption | lia | lia].
    + exact Hz.
  - rewrite spec_dateTime_extended_plus by lia.
    rewrite (getHours_new2 _ _
               ((((ISO8601.daysFromCivil y mo d * 24 + hh) * 60 + mi
                  - signedOffset "+" oh om) * 60 + ss) * 1000)
               (signedOffset "+" oh om)).
    + now rewrite hourAt_written by lia.
    + apply instantOf_dateTime; try reflexivity; try lia.
      apply numericOffset_extended; [reflexivity | lia | lia].
    + unfold offsetExtended. rewrite zoneOffset_numeric by reflexivity.
      apply numericOffset_extended; [reflexivity | lia | lia].
    + exact Hz.
Qed.

(** X7: for every literal [YYYY-MM-DDThh:mm:ss-HH:MM] the parsed value is
    tagged ["UTC"] and shows the UTC hour of the instant,
    [(hh + HH + (mm + MM) / 60) mod 24], not the written hour. *)
Theorem X7_negative_colon_offset_shows_utc_hour
    (env : Env) (y mo d hh mi ss oh om : Z) :
  fieldsOk y mo d hh mi ss oh om ->
  exists dt,
    fst (parseISOToDateInTimezone env
           (JString (dateTime y mo d hh mi ss (offsetExtended "-" oh om))))
    = Return dt /\
    dt = TZDate_new2
           (JString (dateTime y mo d hh mi ss (offsetExtended "-" oh om))) "UTC" /\
    getHours dt = Some ((hh + oh + (mi + om) / 60) mod 24).
Proof.
  intros (Hy & Hmo & Hd & Hhh & Hmi & Hss & Hoh & Hom).
  pose proof (daysInMonth_le y mo) as Hdim.
  rewrite parse_string by apply dateTime_nonempty.
  eexists. split; [reflexivity|].
  rewrite spec_dateTime_extended_minus by lia.
  split; [reflexivity|].
  rewrite (getHours_new2 _ _
             ((((ISO8601.daysFromCivil y mo d * 24 + hh) * 60 + mi
                - - (60 * oh + om)) * 60 + ss) * 1000) 0).
  - now rewrite hourAt_utc_of_negative by lia.
  - apply instantOf_dateTime; try reflexivity; try lia.
    apply (numericOffset_extended "-"); [reflexivity | lia | lia].
  - reflexivity.
  - reflexivity.
Qed.

End WrittenHour.

End ParserOnOtherInputs.

Lemma fieldsOk_example : fieldsOk 2019 3 2 7 18 0 1 0.
Proof. unfold fieldsOk. cbv. intuition discriminate. Qed.

Lemma X4_production_coerces_witness :
  exists offset,
    getISOTimezoneOffset (JString "2020-10-14T14:03:00+0200") = Return offset /\
    parseISOToDateInTimezone prodEnv
      (JObject (Some "2020-10-14T14:03:00+0200")) =
    (Return (TZModel.new2 (JString "2020-10-14T14:03:00+0200") offset),
     [(warning, JObject (Some "2020-10-14T14:03:00+0200"))]).
Proof.
  refine (X4_production_coerces prodEnv
            (JObject (Some "2020-10-14T14:03:00+0200"))
            "2020-10-14T14:03:00+0200" _ _ _ _); reflexivity.
Defined.

Lemma X5_non_production_throws_witness :
  parseISOToDateInTimezone (T := TZModel.TZDate) devEnv (JBool true) =
  (Throw TypeError, [(warning, JBool true)]).
Proof.
  refine (X5_non_production_throws devEnv (JBool true) _ _ _); reflexivity.
Defined.

Lemma X6_written_hour_preserved_witness :
  exists dt,
    fst (parseISOToDateInTimezone devEnv
           (JString (dateTime 2019 3 2 7 18 0 (offsetBasic "-" 1 0))))
    = Return dt /\
    TZModel.hours dt = Some 7.
Proof.
  refine (X6_written_hour_preserved TZModel_hours_new2 devEnv
            2019 3 2 7 18 0 1 0 "-" (offsetBasic "-" 1 0)
            fieldsOk_example _ _ _);
    [reflexivity | reflexivity | left; reflexivity].
Defined.

Lemma X7_negative_colon_offset_shows_utc_hour_witness :
  exists dt,
    fst (parseISOToDateInTimezone devEnv
           (JString (dateTime 2019 3 2 7 18 0 (offsetExtended "-" 1 0))))
    = Return dt /\
    dt = TZModel.new2
           (JString (dateTime 2019 3 2 7 18 0 (offsetExtended "-" 1 0))) "UTC" /\
    TZModel.hours dt = Some ((7 + 1 + (18 + 0) / 60) mod 24).
Proof.
  exact (X7_negative_colon_offset_shows_utc_hour TZModel_hours_new2 devEnv
           2019 3 2 7 18 0 1 0 fieldsOk_example).
Defined.

(* ------------------------------------------------------------------ *)
(** ** getInverseValue *)

Section InverseValue.

Context {T : Type} `{StrictEq T}.

(** [===] decides equality on [T] (as on enum members, strings and
    numbers other than [NaN]). *)
Hypothesis strictEquals_spec :
  forall x y : T, strictEquals x y = true <-> x = y.

Lemma strictEquals_refl (x : T) : strictEquals x x = true.
Proof. now apply strictEquals_spec. Qed.

Lemma strictEquals_neq (x y : T) : x <> y -> strictEquals x y = false.
Proof.
  intros Hn. destruct (strictEquals x y) eqn:E; [|reflexivity].
  apply strictEquals_spec in E. contradiction.
Qed.

(** X8: on a member of the pair [getInverseValue] returns a member of the
    pair, the other one when the two differ, and applying it twice gives the
    value back. *)
Theorem X8_getInverseValue_swaps (val a b : T) :
  val = a \/ val = b ->
  (getInverseValue val (a, b) = a \/ getInverseValue val (a, b) = b) /\
  (a <> b -> getInverseValue val (a, b) <> val) /\
  getInverseValue (getInverseValue val (a, b)) (a, b) = val.
Proof.
  unfold getInverseValue. cbn [fst snd].
  destruct (strictEquals a b) eqn:Eab.
  - apply strictEquals_spec in Eab as <-. intros [->| ->];
      rewrite !strictEquals_refl; (split; [now left|]); split; congruence.
  - assert (Hab : a <> b).
    { intros E. apply strictEquals_spec in E. congruence. }
    intros [->| ->].
    + rewrite strictEquals_refl, Eab. repeat split; [now right | congruence].
    + rewrite Eab, strictEquals_refl. repeat split; [now left | congruence].
Qed.

End InverseValue.

Lemma DoorState_strictEquals_spec (x y : DoorState) :
  strictEquals x y = true <-> x = y.
Proof. destruct x, y; split; (reflexivity || discriminate). Qed.

Lemma X8_getInverseValue_swaps_witness :
  (getInverseValue CLOSED (OPEN, CLOSED) = OPEN \/
   getInverseValue CLOSED (OPEN, CLOSED) = CLOSED) /\
  (OPEN <> CLOSED -> getInverseValue CLOSED (OPEN, CLOSED) <> CLOSED) /\
  getInverseValue (getInverseValue CLOSED (OPEN, CLOSED)) (OPEN, CLOSED) = CLOSED.
Proof.
  apply (X8_getInverseValue_swaps DoorState_strictEquals_spec CLOSED OPEN CLOSED).
  right. reflexivity.
Defined.

(* ------------------------------------------------------------------ *)
(** ** generateAnalyticsPlatform and assertNever *)

Lemma isLiteral_spec (v : JSValue) (lit : string) :
  isLiteral v lit = true <-> v = JString lit.
Proof.
  destruct v; simpl; try (split; [discriminate | congruence]).
  rewrite String.eqb_eq. split; congruence.
Qed.

(** X9: [generateAnalyticsPlatform] throws exactly on the truthy values
    other than ["MOBILE"] and ["WEB"]; on a falsy value, which
    [assertNever] lets through, it returns [undefined]. *)
Theorem X9_generateAnalyticsPlatform_throws_iff (v : JSValue) :
  ((exists e, generateAnalyticsPlatform v = Raised e) <->
   ToBoolean v = true /\ v <> JString "MOBILE" /\ v <> JString "WEB") /\
  (ToBoolean v = false -> generateAnalyticsPlatform v = Done JUndefined).
Proof.
  unfold generateAnalyticsPlatform, assertNever.
  destruct (isLiteral v "MOBILE") eqn:Em.
  { apply isLiteral_spec in Em as ->. split; [|discriminate].
    split; [intros [e He]; discriminate | intros (_ & Hn & _); congruence]. }
  destruct (isLiteral v "WEB") eqn:Ew.
  { apply isLiteral_spec in Ew as ->. split; [|discriminate].
    split; [intros [e He]; discriminate | intros (_ & _ & Hn); congruence]. }
  assert (Hm : v <> JString "MOBILE").
  { intros E. apply isLiteral_spec in E. congruence. }
  assert (Hw : v <> JString "WEB").
  { intros E. apply isLiteral_spec in E. congruence. }
  destruct (ToBoolean v).
  - split; [|discriminate]. split; [intros _; now repeat split|].
    intros _. destruct (ToString v); eexists; reflexivity.
  - split; [|reflexivity].
    split; [intros [e He]; discriminate | intros [Hf _]; discriminate].
Qed.

Lemma X9_generateAnalyticsPlatform_throws_iff_witness :
  generateAnalyticsPlatform (JString "") = Done JUndefined.
Proof.
  apply (proj2 (X9_generateAnalyticsPlatform_throws_iff (JString ""))).
  reflexivity.
Defined.
